(** * HAR / CCS deployment headers: configuration, taxonomy and label tables

    A shallow embedding of the generated C headers

    - [har_config.h]          (baseline profile),
    - [har_config_phase1.h]   (phase-1 profile),
    - [labels_all.h]          (per-session label tables and the registry),

    followed by the properties that the design document states about them.

    Conventions.  A C [int] is a [Z] (the functions below only compare their
    argument with constants, so no wrap-around can occur); [uint8_t] and
    [uint16_t] values are [Z] reduced modulo [2^8] and [2^16]; a [float]
    literal [d.ddddf] is kept as the decimal rational that is written in the
    header and is given its binary32 value by [Float32.of_lit]. *)

From Stdlib Require Import ZArith QArith List Bool String Ascii Lia Lqa.
From Stdlib Require Import Floats.SpecFloat.
Import ListNotations.

Open Scope Z_scope.

(** ** C scalar types *)

Module CTypes.

Definition int := Z.
Definition INT_MIN : Z := - 2 ^ 31.
Definition INT_MAX : Z := 2 ^ 31 - 1.
Definition in_int (z : Z) : Prop := INT_MIN <= z <= INT_MAX.

(** Conversion of a size to [uint8_t] / [uint16_t]. *)
Definition to_uint8 (z : Z) : Z := z mod 2 ^ 8.
Definition to_uint16 (z : Z) : Z := z mod 2 ^ 16.

(** [sizeof(a)/sizeof(a[0])] for an array given by its initialiser. *)
Definition array_count {A : Type} (a : list A) : Z := Z.of_nat (List.length a).

End CTypes.

(** ** IEEE-754 binary32, the type of the [f]-suffixed literals *)

Module Float32.

Definition prec : Z := 24.
Definition emax : Z := 128.

Definition float := spec_float.

(** An integer that fits the significand converts exactly. *)
Definition of_Z (z : Z) : float := binary_normalize prec emax z 0 false.

(** The value of the literal whose decimal text denotes [q]: the correctly
    rounded quotient of numerator and denominator, both of which are exact
    in binary32 for every literal of the headers. *)
Definition of_lit (q : Q) : float :=
  SFdiv prec emax (of_Z (Qnum q)) (of_Z (Zpos (Qden q))).

Definition add : float -> float -> float := SFadd prec emax.
Definition eqb : float -> float -> bool := SFeqb.
Definition ltb : float -> float -> bool := SFltb.
Definition leb : float -> float -> bool := SFleb.

Definition zero : float := of_Z 0.
Definition one : float := of_Z 1.

End Float32.

(** ** The 4-class operational taxonomy

    [// Returns: 0=Locomotion, 1=Transition, 2=Stationary, 3=Unknown] *)

Definition Locomotion : Z := 0.
Definition Transition : Z := 1.
Definition Stationary : Z := 2.
Definition Unknown : Z := 3.

(** ** [har_config.h] *)

Module HarConfig.

(* Model architecture *)
Definition HAR_INPUT_LENGTH : Z := 100.
Definition HAR_INPUT_CHANNELS : Z := 3.
Definition HAR_N_CLASSES : Z := 12.
Definition HAR_UNKNOWN_CLASS_ID : Z := 12.

(* Calibration parameters *)
Definition HAR_TEMPERATURE : Q := 0.7320.
Definition HAR_TAU_UNKNOWN : Q := 0.5800.

(* U/S/CCS parameters *)
Definition CCS_ALPHA : Q := 0.6.
Definition CCS_BETA : Q := 0.4.
Definition CCS_THETA_LOW : Q := 0.40.
Definition CCS_THETA_HIGH : Q := 0.70.
Definition CCS_WINDOW_SIZE : Z := 10.
Definition CCS_MIN_DWELL_MS : Z := 2000.

(* BLE advertising intervals (ms) *)
Definition BLE_INTERVAL_QUIET : Z := 2000.
Definition BLE_INTERVAL_UNCERTAIN : Z := 500.
Definition BLE_INTERVAL_ACTIVE : Z := 100.
Definition BLE_INTERVAL_FALLBACK : Z := 1000.

(* Class names (12-class internal) *)
Definition HAR_CLASS_NAMES : list string :=
  [ "Standing"; "Sitting"; "Lying"; "Walking"; "Stairs"; "Bends"; "Arms";
    "Crouch"; "Cycling"; "Jogging"; "Running"; "Jump"; "Unknown" ]%string.

(* 4-class operational mapping *)
Definition map_to_4class (class_12 : CTypes.int) : CTypes.int :=
  if class_12 =? 12 then 3
  else if (class_12 =? 3) || (class_12 =? 8) || (class_12 =? 9)
          || (class_12 =? 10) then 0
  else if (class_12 =? 4) || (class_12 =? 5) || (class_12 =? 6)
          || (class_12 =? 7) || (class_12 =? 11) then 1
  else if (class_12 =? 0) || (class_12 =? 1) || (class_12 =? 2) then 2
  else 3.

End HarConfig.

(** ** [har_config_phase1.h] *)

Module HarConfigPhase1.

(* Model architecture *)
Definition HAR_INPUT_LENGTH : Z := 100.
Definition HAR_INPUT_CHANNELS : Z := 3.
Definition HAR_N_CLASSES : Z := 12.
Definition HAR_UNKNOWN_CLASS_ID : Z := 12.

(* Calibration parameters (from recalibration) *)
Definition HAR_TEMPERATURE : Q := 0.7320.
Definition HAR_TAU_UNKNOWN : Q := 0.5800.

(* U/S/CCS parameters *)
Definition CCS_ALPHA : Q := 0.6.
Definition CCS_BETA : Q := 0.4.

(* Phase 1 recommended thresholds *)
Definition CCS_THETA_LOW : Q := 0.15.
Definition CCS_THETA_HIGH : Q := 0.35.

Definition CCS_WINDOW_SIZE : Z := 10.

(* Phase 1 recommended dwell time *)
Definition CCS_MIN_DWELL_MS : Z := 1000.

(* BLE advertising intervals (ms) *)
Definition BLE_INTERVAL_QUIET : Z := 2000.
Definition BLE_INTERVAL_UNCERTAIN : Z := 500.
Definition BLE_INTERVAL_ACTIVE : Z := 100.
Definition BLE_INTERVAL_FALLBACK : Z := 1000.

(* Class names (12-class internal) *)
Definition HAR_CLASS_NAMES : list string :=
  [ "Standing"; "Sitting"; "Lying"; "Walking"; "Stairs"; "Bends"; "Arms";
    "Crouch"; "Cycling"; "Jogging"; "Running"; "Jump"; "Unknown" ]%string.

(* 4-class operational mapping *)
Definition map_to_4class (class_12 : CTypes.int) : CTypes.int :=
  if class_12 =? 12 then 3
  else if (class_12 =? 3) || (class_12 =? 8) || (class_12 =? 9)
          || (class_12 =? 10) then 0
  else if (class_12 =? 4) || (class_12 =? 5) || (class_12 =? 6)
          || (class_12 =? 7) || (class_12 =? 11) then 1
  else if (class_12 =? 0) || (class_12 =? 1) || (class_12 =? 2) then 2
  else 3.

End HarConfigPhase1.

(** ** The two headers as configuration values

    Both headers define the same macro names under the same include guard, so
    a build sees exactly one of them.  [har_config] collects the macros of
    one header; [baseline] and [phase1] are the two headers. *)

Record har_config : Type := {
  HAR_INPUT_LENGTH : Z;
  HAR_INPUT_CHANNELS : Z;
  HAR_N_CLASSES : Z;
  HAR_UNKNOWN_CLASS_ID : Z;
  HAR_TEMPERATURE : Q;
  HAR_TAU_UNKNOWN : Q;
  CCS_ALPHA : Q;
  CCS_BETA : Q;
  CCS_THETA_LOW : Q;
  CCS_THETA_HIGH : Q;
  CCS_WINDOW_SIZE : Z;
  CCS_MIN_DWELL_MS : Z;
  BLE_INTERVAL_QUIET : Z;
  BLE_INTERVAL_UNCERTAIN : Z;
  BLE_INTERVAL_ACTIVE : Z;
  BLE_INTERVAL_FALLBACK : Z
}.

Definition baseline : har_config := {|
  HAR_INPUT_LENGTH := HarConfig.HAR_INPUT_LENGTH;
  HAR_INPUT_CHANNELS := HarConfig.HAR_INPUT_CHANNELS;
  HAR_N_CLASSES := HarConfig.HAR_N_CLASSES;
  HAR_UNKNOWN_CLASS_ID := HarConfig.HAR_UNKNOWN_CLASS_ID;
  HAR_TEMPERATURE := HarConfig.HAR_TEMPERATURE;
  HAR_TAU_UNKNOWN := HarConfig.HAR_TAU_UNKNOWN;
  CCS_ALPHA := HarConfig.CCS_ALPHA;
  CCS_BETA := HarConfig.CCS_BETA;
  CCS_THETA_LOW := HarConfig.CCS_THETA_LOW;
  CCS_THETA_HIGH := HarConfig.CCS_THETA_HIGH;
  CCS_WINDOW_SIZE := HarConfig.CCS_WINDOW_SIZE;
  CCS_MIN_DWELL_MS := HarConfig.CCS_MIN_DWELL_MS;
  BLE_INTERVAL_QUIET := HarConfig.BLE_INTERVAL_QUIET;
  BLE_INTERVAL_UNCERTAIN := HarConfig.BLE_INTERVAL_UNCERTAIN;
  BLE_INTERVAL_ACTIVE := HarConfig.BLE_INTERVAL_ACTIVE;
  BLE_INTERVAL_FALLBACK := HarConfig.BLE_INTERVAL_FALLBACK
|}.

Definition phase1 : har_config := {|
  HAR_INPUT_LENGTH := HarConfigPhase1.HAR_INPUT_LENGTH;
  HAR_INPUT_CHANNELS := HarConfigPhase1.HAR_INPUT_CHANNELS;
  HAR_N_CLASSES := HarConfigPhase1.HAR_N_CLASSES;
  HAR_UNKNOWN_CLASS_ID := HarConfigPhase1.HAR_UNKNOWN_CLASS_ID;
  HAR_TEMPERATURE := HarConfigPhase1.HAR_TEMPERATURE;
  HAR_TAU_UNKNOWN := HarConfigPhase1.HAR_TAU_UNKNOWN;
  CCS_ALPHA := HarConfigPhase1.CCS_ALPHA;
  CCS_BETA := HarConfigPhase1.CCS_BETA;
  CCS_THETA_LOW := HarConfigPhase1.CCS_THETA_LOW;
  CCS_THETA_HIGH := HarConfigPhase1.CCS_THETA_HIGH;
  CCS_WINDOW_SIZE := HarConfigPhase1.CCS_WINDOW_SIZE;
  CCS_MIN_DWELL_MS := HarConfigPhase1.CCS_MIN_DWELL_MS;
  BLE_INTERVAL_QUIET := HarConfigPhase1.BLE_INTERVAL_QUIET;
  BLE_INTERVAL_UNCERTAIN := HarConfigPhase1.BLE_INTERVAL_UNCERTAIN;
  BLE_INTERVAL_ACTIVE := HarConfigPhase1.BLE_INTERVAL_ACTIVE;
  BLE_INTERVAL_FALLBACK := HarConfigPhase1.BLE_INTERVAL_FALLBACK
|}.

(** *** Parameter invariants

    The invariants of the design document, once on the decimal values that
    are written in the header and once on the binary32 constants that the
    compiler produces from them, with binary32 addition and comparison. *)

Definition config_invariants (c : har_config) : Prop :=
  (CCS_ALPHA c + CCS_BETA c == 1)%Q /\
  (0 <= CCS_THETA_LOW c)%Q /\
  (CCS_THETA_LOW c < CCS_THETA_HIGH c)%Q /\
  (CCS_THETA_HIGH c <= 1)%Q /\
  (0 < HAR_TEMPERATURE c)%Q /\
  (0 <= HAR_TAU_UNKNOWN c)%Q /\ (HAR_TAU_UNKNOWN c <= 1)%Q /\
  1 <= CCS_WINDOW_SIZE c /\
  0 <= CCS_MIN_DWELL_MS c /\
  0 < BLE_INTERVAL_QUIET c /\
  0 < BLE_INTERVAL_UNCERTAIN c /\
  0 < BLE_INTERVAL_ACTIVE c /\
  0 < BLE_INTERVAL_FALLBACK c.

Definition config_invariants_f32 (c : har_config) : bool :=
  let f := Float32.of_lit in
  Float32.eqb (Float32.add (f (CCS_ALPHA c)) (f (CCS_BETA c))) Float32.one
  && Float32.leb Float32.zero (f (CCS_THETA_LOW c))
  && Float32.ltb (f (CCS_THETA_LOW c)) (f (CCS_THETA_HIGH c))
  && Float32.leb (f (CCS_THETA_HIGH c)) Float32.one
  && Float32.ltb Float32.zero (f (HAR_TEMPERATURE c))
  && Float32.leb Float32.zero (f (HAR_TAU_UNKNOWN c))
  && Float32.leb (f (HAR_TAU_UNKNOWN c)) Float32.one
  && (1 <=? CCS_WINDOW_SIZE c)
  && (0 <=? CCS_MIN_DWELL_MS c)
  && (0 <? BLE_INTERVAL_QUIET c)
  && (0 <? BLE_INTERVAL_UNCERTAIN c)
  && (0 <? BLE_INTERVAL_ACTIVE c)
  && (0 <? BLE_INTERVAL_FALLBACK c).

(** *** Comparing two headers macro by macro

    Integer macros are compared as integers, [float] macros as the binary32
    constants they compile to. *)

Definition same_int (get : har_config -> Z) (a b : har_config) : bool :=
  get a =? get b.

Definition same_float (get : har_config -> Q) (a b : har_config) : bool :=
  Float32.eqb (Float32.of_lit (get a)) (Float32.of_lit (get b)).

Definition config_macros : list (string * (har_config -> har_config -> bool)) :=
  [ ("HAR_INPUT_LENGTH", same_int HAR_INPUT_LENGTH);
    ("HAR_INPUT_CHANNELS", same_int HAR_INPUT_CHANNELS);
    ("HAR_N_CLASSES", same_int HAR_N_CLASSES);
    ("HAR_UNKNOWN_CLASS_ID", same_int HAR_UNKNOWN_CLASS_ID);
    ("HAR_TEMPERATURE", same_float HAR_TEMPERATURE);
    ("HAR_TAU_UNKNOWN", same_float HAR_TAU_UNKNOWN);
    ("CCS_ALPHA", same_float CCS_ALPHA);
    ("CCS_BETA", same_float CCS_BETA);
    ("CCS_THETA_LOW", same_float CCS_THETA_LOW);
    ("CCS_THETA_HIGH", same_float CCS_THETA_HIGH);
    ("CCS_WINDOW_SIZE", same_int CCS_WINDOW_SIZE);
    ("CCS_MIN_DWELL_MS", same_int CCS_MIN_DWELL_MS);
    ("BLE_INTERVAL_QUIET", same_int BLE_INTERVAL_QUIET);
    ("BLE_INTERVAL_UNCERTAIN", same_int BLE_INTERVAL_UNCERTAIN);
    ("BLE_INTERVAL_ACTIVE", same_int BLE_INTERVAL_ACTIVE);
    ("BLE_INTERVAL_FALLBACK", same_int BLE_INTERVAL_FALLBACK) ]%string.

Definition differing_macros (a b : har_config) : list string :=
  map fst (filter (fun m => negb (snd m a b)) config_macros).

(** A macro has the same definition in both headers. *)
Definition shared {A : Type} (get : har_config -> A) : Prop :=
  get baseline = get phase1.

(** The [float] macros of a header. *)
Definition float_macros (c : har_config) : list Q :=
  [ HAR_TEMPERATURE c; HAR_TAU_UNKNOWN c; CCS_ALPHA c; CCS_BETA c;
    CCS_THETA_LOW c; CCS_THETA_HIGH c ].

(** ** What a call of [map_to_4class] hands to its caller

    [static inline int map_to_4class(int class_12)] consists of [if] /
    [return] statements only: it writes no global, has no out-parameter and
    calls nothing.  A call is observed as its return value together with the
    signals it raised, and the latter list is empty on every path. *)

Inductive signal : Type := OutOfRangeClass.

Definition call_outcome : Type := (CTypes.int * list signal)%type.

Definition returning (v : CTypes.int) : call_outcome := (v, []).

Definition map_to_4class_call (class_12 : CTypes.int) : call_outcome :=
  if class_12 =? 12 then returning 3
  else if (class_12 =? 3) || (class_12 =? 8) || (class_12 =? 9)
          || (class_12 =? 10) then returning 0
  else if (class_12 =? 4) || (class_12 =? 5) || (class_12 =? 6)
          || (class_12 =? 7) || (class_12 =? 11) then returning 1
  else if (class_12 =? 0) || (class_12 =? 1) || (class_12 =? 2) then returning 2
  else returning 3.

Definition returned (o : call_outcome) : CTypes.int := fst o.
Definition signalled (o : call_outcome) : list signal := snd o.

(** An id is mapped to class [c] by the function of either header. *)
Definition maps_to (class_12 c : Z) : Prop :=
  HarConfig.map_to_4class class_12 = c /\
  HarConfigPhase1.map_to_4class class_12 = c.

(** ** Operating modes and the advertising cadence binder *)

(** Modelled from the spec: the headers hold the four [BLE_INTERVAL_*] macros
    but neither a mode type nor the binder function; the modes are the four
    states of the design document (and the four macro suffixes), and the
    binder sends each mode to the macro of its name. *)
Inductive Mode : Type := QUIET | UNCERTAIN | ACTIVE | FALLBACK.

Definition all_modes : list Mode := [QUIET; UNCERTAIN; ACTIVE; FALLBACK].

(** Modelled from the spec: the binder of section 4.6, [mode -> interval]. *)
Definition interval_of_mode (c : har_config) (m : Mode) : Z :=
  match m with
  | QUIET => BLE_INTERVAL_QUIET c
  | UNCERTAIN => BLE_INTERVAL_UNCERTAIN c
  | ACTIVE => BLE_INTERVAL_ACTIVE c
  | FALLBACK => BLE_INTERVAL_FALLBACK c
  end.

(** Modelled from the spec: the reverse lookup of section 8, the first mode
    whose interval is the given one. *)
Definition mode_of_interval (c : har_config) (ms : Z) : option Mode :=
  find (fun m => interval_of_mode c m =? ms) all_modes.

(** ** The desired band *)

Definition Qltb (x y : Q) : bool :=
  match (x ?= y)%Q with Lt => true | _ => false end.

(** Modelled from the spec: the band function is not in the headers, which
    only carry its three cases as comments on the interval macros
    ([// CCS < theta_low], [// theta_low <= CCS < theta_high],
    [// CCS >= theta_high]); the cases are tried in the order of section 4.5. *)
Definition desired_band (theta_low theta_high ccs : Q) : Mode :=
  if Qltb ccs theta_low then QUIET
  else if Qltb ccs theta_high then UNCERTAIN
  else ACTIVE.

Definition band_of (c : har_config) (ccs : Q) : Mode :=
  desired_band (CCS_THETA_LOW c) (CCS_THETA_HIGH c) ccs.

(** Modelled from the spec: the same three cases on binary32 values, with
    the comparison of binary32 (false whenever an operand is a NaN). *)
Definition desired_band_f32 (theta_low theta_high ccs : Float32.float) : Mode :=
  if Float32.ltb ccs theta_low then QUIET
  else if Float32.ltb ccs theta_high then UNCERTAIN
  else ACTIVE.

Definition band_of_f32 (c : har_config) (ccs : Float32.float) : Mode :=
  desired_band_f32 (Float32.of_lit (CCS_THETA_LOW c))
                   (Float32.of_lit (CCS_THETA_HIGH c)) ccs.

Definition positive_finite (x : Float32.float) : Prop :=
  match x with S754_finite false _ _ => True | _ => False end.

(** ** [labels_all.h] *)

Module LabelsAll.

Import CTypes.

Definition labels_01 : list Z := [0;0;1;1;2;2;0;1;2;0].
Definition nLabels_01 : Z := to_uint16 (array_count labels_01).

Definition labels_02 : list Z := [0;1;2;0;1;2;0;1;2;0].
Definition nLabels_02 : Z := to_uint16 (array_count labels_02).

Definition labels_03 : list Z := [0;0;0;1;1;1;2;2;2;0].
Definition nLabels_03 : Z := to_uint16 (array_count labels_03).

Definition labels_04 : list Z := [0;2;1;0;2;1;0;2;1;0].
Definition nLabels_04 : Z := to_uint16 (array_count labels_04).

Definition labels_05 : list Z := [2;2;2;1;1;0;0;0;1;2].
Definition nLabels_05 : Z := to_uint16 (array_count labels_05).

Definition labels_06 : list Z := [1;1;0;0;2;2;1;1;0;0].
Definition nLabels_06 : Z := to_uint16 (array_count labels_06).

Definition labels_07 : list Z := [2;1;0;2;1;0;2;1;0;2].
Definition nLabels_07 : Z := to_uint16 (array_count labels_07).

Definition labels_08 : list Z := [0;1;0;1;2;2;1;0;2;1].
Definition nLabels_08 : Z := to_uint16 (array_count labels_08).

Definition labels_09 : list Z := [1;0;1;0;2;1;2;0;2;1].
Definition nLabels_09 : Z := to_uint16 (array_count labels_09).

Definition labels_10 : list Z := [2;0;2;0;1;1;0;2;1;0].
Definition nLabels_10 : Z := to_uint16 (array_count labels_10).

(** [seq] is the array that the C pointer designates. *)
Record SessionLabels : Type := {
  id : string;
  seq : list Z;
  len : Z
}.

Definition SESSIONS : list SessionLabels :=
  [ {| id := "01"; seq := labels_01; len := nLabels_01 |};
    {| id := "02"; seq := labels_02; len := nLabels_02 |};
    {| id := "03"; seq := labels_03; len := nLabels_03 |};
    {| id := "04"; seq := labels_04; len := nLabels_04 |};
    {| id := "05"; seq := labels_05; len := nLabels_05 |};
    {| id := "06"; seq := labels_06; len := nLabels_06 |};
    {| id := "07"; seq := labels_07; len := nLabels_07 |};
    {| id := "08"; seq := labels_08; len := nLabels_08 |};
    {| id := "09"; seq := labels_09; len := nLabels_09 |};
    {| id := "10"; seq := labels_10; len := nLabels_10 |} ]%string.

Definition NUM_SESSIONS : Z := to_uint8 (array_count SESSIONS).

(** [SESSIONS[j]]; an index outside the array has no value. *)
Definition session_at (j : Z) : option SessionLabels :=
  if (0 <=? j) && (j <? array_count SESSIONS)
  then nth_error SESSIONS (Z.to_nat j)
  else None.

(** [seq[i]] of a session, inside its array. *)
Definition label_at (s : SessionLabels) (i : nat) : option Z :=
  nth_error (seq s) i.

End LabelsAll.

(** ** Cyclic playback of a session *)

Module Playback.

Import LabelsAll.

Inductive error : Type := UnknownSession.

(** Modelled from the spec: the header holds the tables only (its comment
    says that they are replayed in a loop); the cursor and the operations
    [open] and [next] are those of section 4.1. *)
Record cursor : Type := {
  session : SessionLabels;
  pos : nat
}.

(** Modelled from the spec: access to a session by its id, a scan of the
    registry in order with string comparison. *)
Definition find_session (sid : string) : option SessionLabels :=
  find (fun s => String.eqb (id s) sid) SESSIONS.

(** Modelled from the spec: [open(session_id)] fails with [UnknownSession]
    when the id is not in the table, and otherwise starts at the first
    label. *)
Definition open (sid : string) : error + cursor :=
  match find_session sid with
  | Some s => inr {| session := s; pos := 0 |}
  | None => inl UnknownSession
  end.

(** Modelled from the spec: [next(cursor)] returns the label under the
    cursor and advances cyclically over [len] labels. *)
Definition next (c : cursor) : Z * cursor :=
  (nth (pos c) (seq (session c)) 0,
   {| session := session c;
      pos := (S (pos c)) mod (Z.to_nat (len (session c))) |}).

(** The label returned by call number [n], counted from 0. *)
Fixpoint nth_call (n : nat) (c : cursor) : Z :=
  match n with
  | O => fst (next c)
  | S m => nth_call m (snd (next c))
  end.

End Playback.

(** The registry entry of session 03. *)
Definition session_03 : LabelsAll.SessionLabels :=
  {| LabelsAll.id := "03";
     LabelsAll.seq := LabelsAll.labels_03;
     LabelsAll.len := LabelsAll.nLabels_03 |}.

(** The two-digit decimal text of a number below 100. *)
Definition digit_char (d : Z) : ascii := ascii_of_nat (48 + Z.to_nat d).

Definition two_digit (n : Z) : string :=
  String (digit_char (n / 10)) (String (digit_char (n mod 10)) EmptyString).

(** ** Reading the class-name table *)

(** [HAR_CLASS_NAMES[id]]; an index outside the 13 entries has no value. *)
Definition class_name (id : Z) : option string :=
  if (0 <=? id) && (id <? CTypes.array_count HarConfig.HAR_CLASS_NAMES)
  then nth_error HarConfig.HAR_CLASS_NAMES (Z.to_nat id)
  else None.

(** ** The include guard of the configuration headers

    Both headers are wrapped in
    [#ifndef HAR_CONFIG_H] / [#define HAR_CONFIG_H] / ... / [#endif].
    The preprocessor state is the table of macros defined so far, the most
    recent definition first. *)

Module Preprocessor.

Inductive macro_body : Type :=
| Flag                       (* [#define NAME] *)
| IntLit (z : Z)             (* [#define NAME 100] *)
| FloatLit (q : Q).          (* [#define NAME 0.6f] *)

Definition macro_table : Type := list (string * macro_body).

(** [#ifdef name] *)
Definition defined (name : string) (t : macro_table) : bool :=
  existsb (fun d => String.eqb (fst d) name) t.

(** The body that [name] expands to. *)
Definition expand (name : string) (t : macro_table) : option macro_body :=
  option_map snd (find (fun d => String.eqb (fst d) name) t).

(** [#define name body] *)
Definition define (t : macro_table) (d : string * macro_body) : macro_table :=
  d :: t.

(** A guarded header: its guard macro and its [#define] lines in order. *)
Record header : Type := {
  guard : string;
  defines : list (string * macro_body)
}.

(** [#include] of a guarded header: skipped when the guard is defined,
    otherwise the guard and then every macro of the body are defined. *)
Definition include (h : header) (t : macro_table) : macro_table :=
  if defined (guard h) t then t
  else fold_left define (defines h) (define t (guard h, Flag)).

End Preprocessor.

(** The [#define] lines of a configuration header, in the order of the file. *)
Definition config_defines (c : har_config)
  : list (string * Preprocessor.macro_body) :=
  [ ("HAR_INPUT_LENGTH", Preprocessor.IntLit (HAR_INPUT_LENGTH c));
    ("HAR_INPUT_CHANNELS", Preprocessor.IntLit (HAR_INPUT_CHANNELS c));
    ("HAR_N_CLASSES", Preprocessor.IntLit (HAR_N_CLASSES c));
    ("HAR_UNKNOWN_CLASS_ID", Preprocessor.IntLit (HAR_UNKNOWN_CLASS_ID c));
    ("HAR_TEMPERATURE", Preprocessor.FloatLit (HAR_TEMPERATURE c));
    ("HAR_TAU_UNKNOWN", Preprocessor.FloatLit (HAR_TAU_UNKNOWN c));
    ("CCS_ALPHA", Preprocessor.FloatLit (CCS_ALPHA c));
    ("CCS_BETA", Preprocessor.FloatLit (CCS_BETA c));
    ("CCS_THETA_LOW", Preprocessor.FloatLit (CCS_THETA_LOW c));
    ("CCS_THETA_HIGH", Preprocessor.FloatLit (CCS_THETA_HIGH c));
    ("CCS_WINDOW_SIZE", Preprocessor.IntLit (CCS_WINDOW_SIZE c));
    ("CCS_MIN_DWELL_MS", Preprocessor.IntLit (CCS_MIN_DWELL_MS c));
    ("BLE_INTERVAL_QUIET", Preprocessor.IntLit (BLE_INTERVAL_QUIET c));
    ("BLE_INTERVAL_UNCERTAIN", Preprocessor.IntLit (BLE_INTERVAL_UNCERTAIN c));
    ("BLE_INTERVAL_ACTIVE", Preprocessor.IntLit (BLE_INTERVAL_ACTIVE c));
    ("BLE_INTERVAL_FALLBACK", Preprocessor.IntLit (BLE_INTERVAL_FALLBACK c))
  ]%string.

Definition har_config_h : Preprocessor.header :=
  {| Preprocessor.guard := "HAR_CONFIG_H";
     Preprocessor.defines := config_defines baseline |}.

Definition har_config_phase1_h : Preprocessor.header :=
  {| Preprocessor.guard := "HAR_CONFIG_H";
     Preprocessor.defines := config_defines phase1 |}.

(** ** Exact values of binary32 constants *)

(** The rational that a finite binary32 value denotes. *)
Definition f32_to_Q (x : Float32.float) : option Q :=
  match x with
  | S754_zero _ => Some 0%Q
  | S754_finite s m e =>
      Some (inject_Z (if s then Z.neg m else Z.pos m) * Qpower 2 e)%Q
  | S754_infinity _ | S754_nan => None
  end.

(** Binary64, the type of an expression promoted to [double]. *)
Definition f64_add : spec_float -> spec_float -> spec_float := SFadd 53 1024.
Definition f64_one : spec_float := binary_normalize 53 1024 1 0 false.

(** ** From CCS to the advertising interval

    The interval macros carry the CCS range in which they apply:
    [BLE_INTERVAL_QUIET 2000 // CCS < theta_low],
    [BLE_INTERVAL_UNCERTAIN 500 // theta_low <= CCS < theta_high],
    [BLE_INTERVAL_ACTIVE 100 // CCS >= theta_high]. *)
Definition interval_for_ccs (c : har_config) (ccs : Q) : Z :=
  interval_of_mode c (band_of c ccs).

(** * Properties *)

(** ** The taxonomy mapper *)

(** Case analysis on every comparison of an integer with a constant. *)
Ltac by_id_cases :=
  repeat match goal with
         | |- context [ (?a =? ?b) ] =>
             destruct (Z.eqb_spec a b); [ subst; simpl | ]
         end;
  simpl.

(** The effect-aware reading of the function returns what the function
    returns, and raises nothing. *)
Lemma map_to_4class_call_pure (class_12 : Z) :
  map_to_4class_call class_12 = returning (HarConfig.map_to_4class class_12).
Proof.
  unfold map_to_4class_call, HarConfig.map_to_4class.
  by_id_cases; reflexivity.
Qed.

Lemma map_to_4class_outside (class_12 : Z) :
  class_12 < 0 \/ 12 < class_12 ->
  HarConfig.map_to_4class class_12 = Unknown.
Proof.
  intros Hout. unfold HarConfig.map_to_4class, Unknown.
  by_id_cases; solve [ reflexivity | lia ].
Qed.

Lemma map_to_4class_same (class_12 : Z) :
  HarConfig.map_to_4class class_12 = HarConfigPhase1.map_to_4class class_12.
Proof. reflexivity. Qed.

Lemma map_to_4class_in_int (class_12 : Z) :
  CTypes.in_int (HarConfig.map_to_4class class_12).
Proof.
  unfold HarConfig.map_to_4class, CTypes.in_int, CTypes.INT_MIN, CTypes.INT_MAX.
  by_id_cases; lia.
Qed.

(** C1.  On the ids 0..12 the mapper is the table of the design document:
    0, 1, 2 go to Stationary (2); 3, 8, 9, 10 to Locomotion (0);
    4, 5, 6, 7, 11 to Transition (1); 12 to Unknown (3).  The four groups
    are exactly the ids 0..12, and this holds for both headers. *)
Theorem map_to_4class_taxonomy :
  Forall (fun id => maps_to id Stationary) [0; 1; 2] /\
  Forall (fun id => maps_to id Locomotion) [3; 8; 9; 10] /\
  Forall (fun id => maps_to id Transition) [4; 5; 6; 7; 11] /\
  Forall (fun id => maps_to id Unknown) [12] /\
  (forall id : Z,
      existsb (Z.eqb id) ([0; 1; 2] ++ [3; 8; 9; 10] ++ [4; 5; 6; 7; 11] ++ [12])
      = (0 <=? id) && (id <=? 12)).
Proof.
  repeat split; repeat constructor.
  intros id. cbn [app existsb].
  by_id_cases; try reflexivity.
  destruct (Z.leb_spec 0 id), (Z.leb_spec id 12); simpl; solve [ reflexivity | lia ].
Qed.

(** C2 fails as stated: at the out-of-range id 13 the call returns Unknown
    but raises no [OutOfRangeClass]. *)
Lemma map_to_4class_no_signal_at_13 :
  ~ ((13 < 0 \/ 12 < 13) ->
     returned (map_to_4class_call 13) = Unknown /\
     In OutOfRangeClass (signalled (map_to_4class_call 13))).
Proof.
  intros H. destruct H as [_ Hin]; [ right; lia | ].
  exact Hin.
Qed.

(** C2, amended.  For every id outside 0..12 the mapper returns Unknown (3)
    and signals nothing: the outcome of the call is the return value alone,
    the same outcome as for the in-range id 12. *)
Theorem map_to_4class_out_of_range (class_12 : Z) :
  class_12 < 0 \/ 12 < class_12 ->
  returned (map_to_4class_call class_12) = Unknown /\
  signalled (map_to_4class_call class_12) = [] /\
  map_to_4class_call class_12 = map_to_4class_call 12 /\
  maps_to class_12 Unknown.
Proof.
  intros Hout.
  pose proof (map_to_4class_outside class_12 Hout) as Hu.
  rewrite map_to_4class_call_pure, Hu.
  repeat split; try reflexivity.
  - exact Hu.
  - exact Hu.
Qed.

Lemma map_to_4class_out_of_range_witness :
  (13 < 0 \/ 12 < 13) /\
  returned (map_to_4class_call 13) = Unknown /\
  signalled (map_to_4class_call 13) = [] /\
  map_to_4class_call 13 = map_to_4class_call 12 /\
  maps_to 13 Unknown.
Proof.
  split; [ right; reflexivity | ].
  apply (map_to_4class_out_of_range 13). right; reflexivity.
Defined.

(** C10.  The mapper returns Unknown (3) exactly on the ids outside 0..11,
    and every id in 0..11 is mapped into {0, 1, 2}; for both headers. *)
Theorem map_to_4class_unknown_iff (class_12 : Z) :
  (HarConfig.map_to_4class class_12 = Unknown <->
   (class_12 < 0 \/ 11 < class_12)) /\
  (HarConfigPhase1.map_to_4class class_12 = Unknown <->
   (class_12 < 0 \/ 11 < class_12)) /\
  (0 <= class_12 <= 11 ->
   In (HarConfig.map_to_4class class_12) [Locomotion; Transition; Stationary] /\
   In (HarConfigPhase1.map_to_4class class_12)
      [Locomotion; Transition; Stationary]).
Proof.
  unfold HarConfigPhase1.map_to_4class, HarConfig.map_to_4class.
  unfold Unknown, Locomotion, Transition, Stationary.
  by_id_cases; (repeat split; intros; simpl; try lia; auto).
Qed.

Lemma map_to_4class_unknown_iff_witness :
  0 <= 7 <= 11 /\
  In (HarConfig.map_to_4class 7) [Locomotion; Transition; Stationary] /\
  In (HarConfigPhase1.map_to_4class 7) [Locomotion; Transition; Stationary].
Proof.
  assert (H : 0 <= 7 <= 11) by (split; discriminate).
  split; [ exact H | ].
  exact (proj2 (proj2 (map_to_4class_unknown_iff 7)) H).
Defined.

(** ** The configuration profiles *)

(** The binary32 constants behind the [float] macros, as sign, integer
    significand and binary exponent (for instance [0.6f] is [0x3F19999A]). *)
Lemma float_macro_values :
  Float32.of_lit 0.7320 = S754_finite false 12280922 (-24) /\
  Float32.of_lit 0.5800 = S754_finite false 9730785 (-24) /\
  Float32.of_lit 0.6 = S754_finite false 10066330 (-24) /\
  Float32.of_lit 0.4 = S754_finite false 13421773 (-25) /\
  Float32.of_lit 0.40 = S754_finite false 13421773 (-25) /\
  Float32.of_lit 0.70 = S754_finite false 11744051 (-24) /\
  Float32.of_lit 0.15 = S754_finite false 10066330 (-26) /\
  Float32.of_lit 0.35 = S754_finite false 11744051 (-25).
Proof. repeat split; vm_compute; reflexivity. Qed.

(** Every [float] macro of a profile is a canonical binary32 number. *)
Lemma float_macros_valid :
  forallb (fun q => valid_binary Float32.prec Float32.emax (Float32.of_lit q))
          (float_macros baseline ++ float_macros phase1) = true.
Proof. vm_compute. reflexivity. Qed.

Ltac q_compare := vm_compute; solve [ reflexivity | discriminate ].

Lemma baseline_invariants : config_invariants baseline.
Proof. unfold config_invariants. repeat split; q_compare. Qed.

Lemma phase1_invariants : config_invariants phase1.
Proof. unfold config_invariants. repeat split; q_compare. Qed.

(** C3.  The baseline header carries [theta_low = 0.40], [theta_high = 0.70],
    [dwell = 2000], the phase-1 header [0.15], [0.35], [1000], and both
    satisfy every parameter invariant: alpha + beta = 1,
    0 <= theta_low < theta_high <= 1, temperature > 0, tau in [0,1],
    window size >= 1, dwell >= 0, every BLE interval > 0.  This holds for
    the decimal values of the headers and for their binary32 constants
    under binary32 arithmetic. *)
Theorem profiles_satisfy_invariants :
  ((CCS_THETA_LOW baseline == 0.40)%Q /\
   (CCS_THETA_HIGH baseline == 0.70)%Q /\
   CCS_MIN_DWELL_MS baseline = 2000) /\
  ((CCS_THETA_LOW phase1 == 0.15)%Q /\
   (CCS_THETA_HIGH phase1 == 0.35)%Q /\
   CCS_MIN_DWELL_MS phase1 = 1000) /\
  config_invariants baseline /\
  config_invariants phase1 /\
  config_invariants_f32 baseline = true /\
  config_invariants_f32 phase1 = true.
Proof.
  split; [ repeat split; q_compare | ].
  split; [ repeat split; q_compare | ].
  split; [ exact baseline_invariants | ].
  split; [ exact phase1_invariants | ].
  split; vm_compute; reflexivity.
Qed.

(** ** The two headers compared *)

(** C9.  The two headers define the same [map_to_4class] (equal on every
    argument), the same class names and the same model, calibration, weight,
    window and BLE-interval macros; the macros in which they differ are
    exactly [CCS_THETA_LOW], [CCS_THETA_HIGH] and [CCS_MIN_DWELL_MS]. *)
Theorem headers_differ_in_thresholds_and_dwell_only :
  (forall class_12 : Z,
      HarConfig.map_to_4class class_12 = HarConfigPhase1.map_to_4class class_12) /\
  HarConfig.HAR_CLASS_NAMES = HarConfigPhase1.HAR_CLASS_NAMES /\
  (shared HAR_INPUT_LENGTH /\ shared HAR_INPUT_CHANNELS /\
   shared HAR_N_CLASSES /\ shared HAR_UNKNOWN_CLASS_ID /\
   shared HAR_TEMPERATURE /\ shared HAR_TAU_UNKNOWN /\
   shared CCS_ALPHA /\ shared CCS_BETA /\ shared CCS_WINDOW_SIZE /\
   shared BLE_INTERVAL_QUIET /\ shared BLE_INTERVAL_UNCERTAIN /\
   shared BLE_INTERVAL_ACTIVE /\ shared BLE_INTERVAL_FALLBACK) /\
  (~ (CCS_THETA_LOW baseline == CCS_THETA_LOW phase1)%Q /\
   ~ (CCS_THETA_HIGH baseline == CCS_THETA_HIGH phase1)%Q /\
   CCS_MIN_DWELL_MS baseline <> CCS_MIN_DWELL_MS phase1) /\
  differing_macros baseline phase1
  = [ "CCS_THETA_LOW"; "CCS_THETA_HIGH"; "CCS_MIN_DWELL_MS" ]%string.
Proof.
  split; [ exact map_to_4class_same | ].
  split; [ reflexivity | ].
  split; [ unfold shared; repeat split | ].
  split; [ repeat split; q_compare | ].
  vm_compute. reflexivity.
Qed.

(** ** The advertising cadence binder *)

(** A reverse lookup undoes any binder that gives distinct modes distinct
    intervals. *)
Lemma mode_of_interval_inverts (c : har_config) :
  (forall a b, interval_of_mode c a = interval_of_mode c b -> a = b) ->
  forall m, mode_of_interval c (interval_of_mode c m) = Some m.
Proof.
  intros Hinj m. unfold mode_of_interval, all_modes. cbn [find].
  repeat match goal with
         | |- context [ (interval_of_mode c ?x =? ?y) ] =>
             let E := fresh "E" in
             destruct (Z.eqb_spec (interval_of_mode c x) y) as [E | E];
             [ apply Hinj in E; now subst | ]
         end.
  destruct m; congruence.
Qed.

Lemma NoDup_intervals_injective (c : har_config) :
  NoDup (map (interval_of_mode c) all_modes) ->
  forall a b, interval_of_mode c a = interval_of_mode c b -> a = b.
Proof.
  unfold all_modes. cbn [map]. intros Hnd.
  repeat match goal with
         | H : NoDup (_ :: _) |- _ => inversion H; clear H; subst
         end.
  cbn [In] in *.
  intros a b E; destruct a, b; try reflexivity; exfalso;
    cbn [interval_of_mode] in E; symmetry in E; tauto || (symmetry in E; tauto).
Qed.

Lemma profile_intervals_distinct :
  NoDup (map (interval_of_mode baseline) all_modes) /\
  NoDup (map (interval_of_mode phase1) all_modes).
Proof.
  split; cbv; repeat constructor; cbn [In]; intuition discriminate.
Qed.

(** C4.  In both profiles the binder sends QUIET to 2000 ms, UNCERTAIN to
    500 ms, ACTIVE to 100 ms and FALLBACK to 1000 ms; the four intervals are
    pairwise distinct, and the reverse lookup applied to the interval of a
    mode returns that mode. *)
Theorem binder_fixed_and_invertible :
  Forall (fun c =>
            (interval_of_mode c QUIET = 2000 /\
             interval_of_mode c UNCERTAIN = 500 /\
             interval_of_mode c ACTIVE = 100 /\
             interval_of_mode c FALLBACK = 1000) /\
            NoDup (map (interval_of_mode c) all_modes) /\
            (forall m : Mode,
                mode_of_interval c (interval_of_mode c m) = Some m))
         [baseline; phase1].
Proof.
  destruct profile_intervals_distinct as [Hb Hp].
  constructor; [ | constructor; [ | constructor ] ].
  - split; [ repeat split | split; [ exact Hb | ] ].
    apply mode_of_interval_inverts, NoDup_intervals_injective, Hb.
  - split; [ repeat split | split; [ exact Hp | ] ].
    apply mode_of_interval_inverts, NoDup_intervals_injective, Hp.
Qed.

(** ** The desired band *)

Lemma Qltb_lt (x y : Q) : Qltb x y = true <-> (x < y)%Q.
Proof.
  unfold Qltb. destruct (Qcompare_spec x y); split; intros;
    try discriminate; try reflexivity; lra.
Qed.

Lemma Qltb_ge (x y : Q) : Qltb x y = false <-> (y <= x)%Q.
Proof.
  unfold Qltb. destruct (Qcompare_spec x y); split; intros;
    try discriminate; try reflexivity; lra.
Qed.

(** The band is one of the three CCS-driven modes, never FALLBACK. *)
Lemma desired_band_not_fallback (theta_low theta_high ccs : Q) :
  desired_band theta_low theta_high ccs <> FALLBACK.
Proof.
  unfold desired_band.
  destruct (Qltb ccs theta_low), (Qltb ccs theta_high); discriminate.
Qed.

(** C7.  With [theta_low < theta_high], the band is QUIET exactly when
    [CCS < theta_low], UNCERTAIN exactly when [theta_low <= CCS < theta_high]
    and ACTIVE exactly when [CCS >= theta_high]; at [CCS = theta_low] it is
    UNCERTAIN and at [CCS = theta_high] it is ACTIVE. *)
Theorem desired_band_partition (theta_low theta_high ccs : Q) :
  (theta_low < theta_high)%Q ->
  (desired_band theta_low theta_high ccs = QUIET <-> (ccs < theta_low)%Q) /\
  (desired_band theta_low theta_high ccs = UNCERTAIN <->
   (theta_low <= ccs)%Q /\ (ccs < theta_high)%Q) /\
  (desired_band theta_low theta_high ccs = ACTIVE <-> (theta_high <= ccs)%Q) /\
  ((ccs == theta_low)%Q -> desired_band theta_low theta_high ccs = UNCERTAIN) /\
  ((ccs == theta_high)%Q -> desired_band theta_low theta_high ccs = ACTIVE).
Proof.
  intros Hlh. unfold desired_band.
  destruct (Qltb ccs theta_low) eqn:El; destruct (Qltb ccs theta_high) eqn:Eh;
    try apply Qltb_lt in El; try apply Qltb_ge in El;
    try apply Qltb_lt in Eh; try apply Qltb_ge in Eh;
    repeat split; intros; try discriminate; try reflexivity; lra.
Qed.

Lemma desired_band_partition_witness :
  (CCS_THETA_LOW phase1 < CCS_THETA_HIGH phase1)%Q /\
  band_of phase1 (CCS_THETA_LOW phase1) = UNCERTAIN /\
  band_of phase1 (CCS_THETA_HIGH phase1) = ACTIVE /\
  band_of phase1 0.10 = QUIET.
Proof.
  assert (H : (CCS_THETA_LOW phase1 < CCS_THETA_HIGH phase1)%Q) by reflexivity.
  split; [ exact H | ].
  split; [ | split ].
  - apply (desired_band_partition _ _ (CCS_THETA_LOW phase1) H). reflexivity.
  - apply (desired_band_partition _ _ (CCS_THETA_HIGH phase1) H). reflexivity.
  - apply (desired_band_partition _ _ 0.10 H). reflexivity.
Defined.

(** The same partition on binary32 values: for positive finite thresholds
    with [theta_low < theta_high] and any CCS that is not a NaN. *)
Lemma desired_band_f32_partition (theta_low theta_high ccs : Float32.float) :
  positive_finite theta_low -> positive_finite theta_high ->
  Float32.ltb theta_low theta_high = true ->
  ccs <> S754_nan ->
  (desired_band_f32 theta_low theta_high ccs = QUIET <->
   Float32.ltb ccs theta_low = true) /\
  (desired_band_f32 theta_low theta_high ccs = UNCERTAIN <->
   Float32.leb theta_low ccs = true /\ Float32.ltb ccs theta_high = true) /\
  (desired_band_f32 theta_low theta_high ccs = ACTIVE <->
   Float32.leb theta_high ccs = true).
Proof.
  destruct theta_low as [ | | | [] ml el ]; try contradiction.
  destruct theta_high as [ | | | [] mh eh ]; try contradiction.
  intros _ _ Hlh Hnan.
  unfold desired_band_f32, Float32.ltb, Float32.leb, SFltb, SFleb in *.
  destruct ccs as [ [] | [] | | [] m e ]; try congruence; cbn in *;
    try (repeat split; intros; try discriminate; try reflexivity;
         intuition discriminate).
  rewrite !Pos.compare_cont_spec in *. cbn [Pos.switch_Eq] in *.
  rewrite (Z.compare_antisym e el), (Z.compare_antisym e eh),
    (Pos.compare_antisym m ml), (Pos.compare_antisym m mh).
  revert Hlh.
  destruct (Z.compare_spec e el), (Z.compare_spec e eh),
    (Z.compare_spec el eh), (Pos.compare_spec m ml), (Pos.compare_spec m mh),
    (Pos.compare_spec ml mh); cbn;
    intros; try discriminate; try lia;
    repeat split; intros; try discriminate; try reflexivity; try lia;
    intuition discriminate.
Qed.

(** Both profiles meet the conditions of the binary32 partition. *)
Lemma profile_bands_f32 (c : har_config) (ccs : Float32.float) :
  c = baseline \/ c = phase1 -> ccs <> S754_nan ->
  (band_of_f32 c ccs = QUIET <->
   Float32.ltb ccs (Float32.of_lit (CCS_THETA_LOW c)) = true) /\
  (band_of_f32 c ccs = UNCERTAIN <->
   Float32.leb (Float32.of_lit (CCS_THETA_LOW c)) ccs = true /\
   Float32.ltb ccs (Float32.of_lit (CCS_THETA_HIGH c)) = true) /\
  (band_of_f32 c ccs = ACTIVE <->
   Float32.leb (Float32.of_lit (CCS_THETA_HIGH c)) ccs = true).
Proof.
  intros [ -> | -> ] Hnan; apply desired_band_f32_partition;
    solve [ exact Hnan | vm_compute; exact I | vm_compute; reflexivity ].
Qed.

(** ** The label tables *)

Import LabelsAll.

Ltac each_element := repeat (apply Forall_cons || apply Forall_nil).

(** In the registry, [len] is the positive number of labels of the array. *)
Lemma sessions_len :
  Forall (fun s => 1 <= len s /\ len s = Z.of_nat (List.length (seq s)))
         SESSIONS.
Proof.
  unfold SESSIONS. each_element; cbn [len seq].
  all: split; [ vm_compute; discriminate | reflexivity ].
Qed.

(** C5.  Every session of the registry has [len >= 1], [len] is the number
    of labels of its array, and every label [seq[i]] is 0, 1 or 2. *)
Theorem sessions_invariant :
  Forall (fun s =>
            1 <= len s /\
            len s = Z.of_nat (List.length (seq s)) /\
            Forall (fun l => l = 0 \/ l = 1 \/ l = 2) (seq s))
         SESSIONS.
Proof.
  unfold SESSIONS. each_element; cbn [len seq].
  all: split; [ vm_compute; discriminate | split; [ reflexivity | ] ].
  all: each_element; auto.
Qed.

(** ** Cyclic playback *)

Import Playback.

(** From position [p], call number [n] returns the label at [(p + n) mod L]. *)
Lemma nth_call_from (s : SessionLabels) (L : nat) :
  Z.to_nat (len s) = L -> L <> 0%nat ->
  forall (n p : nat), (p < L)%nat ->
    nth_call n {| session := s; pos := p |}
    = nth ((p + n) mod L) (seq s) 0.
Proof.
  intros HL Hpos. induction n as [ | n IH ]; intros p Hp.
  - cbn [nth_call next fst session pos].
    rewrite Nat.add_0_r, Nat.mod_small by exact Hp. reflexivity.
  - cbn [nth_call next snd session pos]. rewrite HL.
    rewrite IH by (apply Nat.mod_upper_bound; exact Hpos).
    rewrite Nat.Div0.add_mod_idemp_l.
    now replace (S p + n)%nat with (p + S n)%nat by lia.
Qed.

(** Playback of any table whose [len] is the positive number of its labels. *)
Lemma nth_call_cyclic (s : SessionLabels) :
  1 <= len s -> len s = Z.of_nat (List.length (seq s)) ->
  forall (k i : nat), (i < Z.to_nat (len s))%nat ->
    label_at s i
    = Some (nth_call (k * Z.to_nat (len s) + i) {| session := s; pos := 0 |}).
Proof.
  intros Hlen Hcount k i Hi.
  rewrite (nth_call_from s (Z.to_nat (len s)) eq_refl) by lia.
  rewrite Nat.add_0_l, Nat.add_comm, Nat.Div0.mod_add.
  rewrite Nat.mod_small by exact Hi.
  unfold label_at. apply nth_error_nth'. lia.
Qed.

Lemma open_registered (s : SessionLabels) :
  In s SESSIONS -> open (id s) = inr {| session := s; pos := 0 |}.
Proof.
  unfold SESSIONS. cbn [In].
  intros H; repeat (destruct H as [ <- | H ]; [ reflexivity | ]).
  contradiction.
Qed.

(** C6.  For every session [s] of the registry, with [L = len s], the cursor
    opened on [s] returns [seq_s[i]] at call number [k*L + i] (counted from
    0), for all [k >= 0] and [0 <= i < L]. *)
Theorem label_cyclicity (s : SessionLabels) (k i : nat) :
  In s SESSIONS -> (i < Z.to_nat (len s))%nat ->
  exists c : cursor,
    open (id s) = inr c /\
    label_at s i = Some (nth_call (k * Z.to_nat (len s) + i) c).
Proof.
  intros Hin Hi. exists {| session := s; pos := 0 |}.
  split; [ exact (open_registered s Hin) | ].
  pose proof sessions_len as Hinv.
  rewrite Forall_forall in Hinv. destruct (Hinv s Hin) as (Hlen & Hcount).
  exact (nth_call_cyclic s Hlen Hcount k i Hi).
Qed.

Lemma label_cyclicity_witness :
  In session_03 SESSIONS /\ (6 < Z.to_nat (len session_03))%nat /\
  exists c : cursor,
    open (id session_03) = inr c /\
    label_at session_03 6
    = Some (nth_call (2 * Z.to_nat (len session_03) + 6) c).
Proof.
  assert (Hin : In session_03 SESSIONS) by (right; right; left; reflexivity).
  assert (Hi : (6 < Z.to_nat (len session_03))%nat) by (vm_compute; lia).
  split; [ exact Hin | split; [ exact Hi | ] ].
  exact (label_cyclicity session_03 2 6 Hin Hi).
Defined.

(** Call number 26 on session 03 is its label number 6, a 2. *)
Example session_03_call_26 :
  match open "03" with
  | inr c => nth_call 26 c = 2
  | inl _ => False
  end.
Proof. reflexivity. Qed.

(** An id outside the registry does not open. *)
Example open_unknown_session : open "11" = inl UnknownSession.
Proof. reflexivity. Qed.

(** ** The session registry *)

(** C8.  The registry has ten entries; for every index [j] in 0..9 the entry
    [SESSIONS[j]] exists, its id is the two-digit decimal text of [j + 1],
    and looking that id up (alone or through [open]) finds the same entry. *)
Theorem registry_ids_in_order (j : Z) :
  0 <= j < NUM_SESSIONS ->
  NUM_SESSIONS = 10 /\
  exists s : SessionLabels,
    session_at j = Some s /\
    id s = two_digit (j + 1) /\
    find_session (two_digit (j + 1)) = Some s /\
    open (two_digit (j + 1)) = inr {| session := s; pos := 0 |}.
Proof.
  change NUM_SESSIONS with 10. intros Hj.
  split; [ reflexivity | ].
  assert (Hcases : j = 0 \/ j = 1 \/ j = 2 \/ j = 3 \/ j = 4 \/
                   j = 5 \/ j = 6 \/ j = 7 \/ j = 8 \/ j = 9) by lia.
  repeat (destruct Hcases as [ -> | Hcases ];
          [ eexists; repeat split; reflexivity | ]).
  subst j. eexists; repeat split; reflexivity.
Qed.

Lemma registry_ids_in_order_witness :
  0 <= 9 < NUM_SESSIONS /\
  NUM_SESSIONS = 10 /\
  exists s : SessionLabels,
    session_at 9 = Some s /\
    id s = two_digit (9 + 1) /\
    find_session (two_digit (9 + 1)) = Some s /\
    open (two_digit (9 + 1)) = inr {| session := s; pos := 0 |}.
Proof.
  assert (H : 0 <= 9 < NUM_SESSIONS) by (split; [ discriminate | reflexivity ]).
  split; [ exact H | ].
  exact (registry_ids_in_order 9 H).
Defined.

(** The ids of the registry are pairwise distinct, so an id names one entry. *)
Lemma registry_ids_distinct : NoDup (map id SESSIONS).
Proof.
  unfold SESSIONS. cbn [map id].
  repeat (constructor; [ cbn [In]; intuition discriminate | ]).
  constructor.
Qed.

(** * Further properties of the headers *)

(** ** The mapper beyond its table *)

(** X1.  The values that [map_to_4class] takes over all integers are exactly
    the four operational classes 0, 1, 2, 3: it never returns anything else,
    and each of the four is returned for some argument. *)
Theorem map_to_4class_image (c : Z) :
  (exists class_12 : Z, HarConfig.map_to_4class class_12 = c) <-> 0 <= c <= 3.
Proof.
  split.
  - intros [class_12 <-]. unfold HarConfig.map_to_4class.
    by_id_cases; lia.
  - intros Hc.
    assert (Hcases : c = 0 \/ c = 1 \/ c = 2 \/ c = 3) by lia.
    destruct Hcases as [ -> | [ -> | [ -> | -> ] ] ].
    + exists 3. reflexivity.
    + exists 4. reflexivity.
    + exists 0. reflexivity.
    + exists 12. reflexivity.
Qed.

(** X2.  Each known operational class has exactly the listed ids as its
    arguments: the mapper returns Locomotion only for 3, 8, 9, 10, Transition
    only for 4, 5, 6, 7, 11 and Stationary only for 0, 1, 2. *)
Theorem map_to_4class_preimages (class_12 : Z) :
  (HarConfig.map_to_4class class_12 = Locomotion <->
   In class_12 [3; 8; 9; 10]) /\
  (HarConfig.map_to_4class class_12 = Transition <->
   In class_12 [4; 5; 6; 7; 11]) /\
  (HarConfig.map_to_4class class_12 = Stationary <->
   In class_12 [0; 1; 2]).
Proof.
  unfold HarConfig.map_to_4class, Locomotion, Transition, Stationary.
  cbn [In].
  by_id_cases; repeat split; intros; try discriminate; try lia; try tauto.
Qed.

(** ** The class-name table and the class macros *)

Lemma class_name_cases (id : Z) :
  (id < 0 \/ 12 < id) /\ class_name id = None \/
  (0 <= id <= 12 /\
   nth_error HarConfig.HAR_CLASS_NAMES (Z.to_nat id) = class_name id /\
   In id [0; 1; 2; 3; 4; 5; 6; 7; 8; 9; 10; 11; 12]).
Proof.
  unfold class_name. change (CTypes.array_count HarConfig.HAR_CLASS_NAMES) with 13.
  destruct (Z.leb_spec 0 id); destruct (Z.ltb_spec id 13); cbn [andb];
    [ right | left | left | left ]; try (split; [ lia | reflexivity ]).
  split; [ lia | split; [ reflexivity | cbn [In]; lia ] ].
Qed.

(** X3.  The name table has an entry exactly for the ids 0..[HAR_N_CLASSES];
    its entry is "Unknown" exactly at [HAR_UNKNOWN_CLASS_ID]; and on the ids
    that have a name, the mapper returns Unknown exactly for the id whose
    name is "Unknown". *)
Theorem class_names_agree_with_mapper (id : Z) :
  (class_name id <> None <-> 0 <= id <= HarConfig.HAR_N_CLASSES) /\
  (class_name id = Some "Unknown"%string <->
   id = HarConfig.HAR_UNKNOWN_CLASS_ID) /\
  (class_name id <> None ->
   (HarConfig.map_to_4class id = Unknown <->
    class_name id = Some "Unknown"%string)).
Proof.
  change HarConfig.HAR_N_CLASSES with 12.
  change HarConfig.HAR_UNKNOWN_CLASS_ID with 12.
  destruct (class_name_cases id) as [ [Hout ->] | (Hin & _ & Hcases) ].
  - repeat split; intros; try discriminate; try congruence; lia.
  - cbn [In] in Hcases.
    repeat (destruct Hcases as [ <- | Hcases ];
            [ cbv; repeat split; intros; try discriminate; try reflexivity;
              try lia; congruence | ]).
    contradiction.
Qed.

Lemma class_names_agree_with_mapper_witness :
  class_name 12 <> None /\
  (HarConfig.map_to_4class 12 = Unknown <->
   class_name 12 = Some "Unknown"%string).
Proof.
  assert (H : class_name 12 <> None) by discriminate.
  split; [ exact H | ].
  exact (proj2 (proj2 (class_names_agree_with_mapper 12)) H).
Defined.

(** ** Include guards *)

Import Preprocessor.

Lemma fold_define (l : list (string * macro_body)) (t : macro_table) :
  fold_left define l t = rev l ++ t.
Proof.
  revert t. induction l as [ | d l IH ]; intros t; [ reflexivity | ].
  cbn [fold_left rev]. rewrite IH. unfold define.
  rewrite <- app_assoc. reflexivity.
Qed.

Lemma include_fresh (h : header) (t : macro_table) :
  defined (guard h) t = false ->
  include h t = rev (defines h) ++ (guard h, Flag) :: t.
Proof.
  intros Hfresh. unfold include. rewrite Hfresh. apply fold_define.
Qed.

(** After an include the guard is defined, whether or not it was before. *)
Lemma include_defines_guard (h : header) (t : macro_table) :
  defined (guard h) (include h t) = true.
Proof.
  destruct (defined (guard h) t) eqn:Hg.
  - unfold include. rewrite Hg. exact Hg.
  - rewrite (include_fresh h t Hg). unfold defined.
    rewrite existsb_app. cbn [existsb fst].
    rewrite String.eqb_refl. cbn [orb]. apply orb_true_r.
Qed.

Lemma find_in_front {A : Type} (f : A -> bool) (l t : list A) (x : A) :
  find f l = Some x -> find f (l ++ t) = Some x.
Proof.
  induction l as [ | a l IH ]; [ discriminate | ].
  cbn [find app]. destruct (f a); [ trivial | exact IH ].
Qed.

Lemma find_past {A : Type} (f : A -> bool) (l t : list A) :
  (forall x, In x l -> f x = false) -> find f (l ++ t) = find f t.
Proof.
  induction l as [ | a l IH ]; intros Hnone; [ reflexivity | ].
  cbn [find app]. rewrite (Hnone a (or_introl eq_refl)).
  apply IH. intros x Hx. apply Hnone. right. exact Hx.
Qed.

Lemma find_by_name (l : list (string * macro_body)) (n : string)
      (b : macro_body) :
  NoDup (map fst l) -> In (n, b) l ->
  find (fun d => String.eqb (fst d) n) l = Some (n, b).
Proof.
  induction l as [ | [n' b'] l IH ]; intros Hnd Hin; [ contradiction | ].
  cbn [map fst] in Hnd. inversion Hnd as [ | ? ? Hnotin Hnd' ]; subst.
  cbn [find fst]. destruct (String.eqb_spec n' n) as [ -> | Hne ].
  - destruct Hin as [ Heq | Hin ]; [ exact (f_equal Some Heq) | ].
    exfalso. apply Hnotin. apply (in_map fst) in Hin. exact Hin.
  - destruct Hin as [ Heq | Hin ]; [ congruence | ].
    exact (IH Hnd' Hin).
Qed.

Lemma config_defines_names_distinct (c : har_config) :
  NoDup (map fst (config_defines c)).
Proof.
  cbn [config_defines map fst].
  repeat (constructor; [ cbn [In]; intuition discriminate | ]).
  constructor.
Qed.

(** X4.  Of two headers with the same guard the one included first wins: a
    later include of the other leaves the macro table unchanged, whatever
    the table was before. *)
Theorem include_first_wins (h1 h2 : header) (t : macro_table) :
  guard h1 = guard h2 ->
  include h2 (include h1 t) = include h1 t.
Proof.
  intros Hguard. unfold include at 1.
  rewrite <- Hguard, include_defines_guard. reflexivity.
Qed.

Lemma include_first_wins_witness :
  guard har_config_h = guard har_config_phase1_h /\
  include har_config_phase1_h (include har_config_h [])
  = include har_config_h [] /\
  expand "CCS_THETA_LOW" (include har_config_phase1_h (include har_config_h []))
  = Some (FloatLit 0.40).
Proof.
  assert (H : guard har_config_h = guard har_config_phase1_h) by reflexivity.
  split; [ exact H | ].
  split; [ exact (include_first_wins har_config_h har_config_phase1_h [] H) | ].
  rewrite (include_first_wins har_config_h har_config_phase1_h [] H).
  reflexivity.
Defined.

(** X5.  Including a header whose guard is not yet defined, and whose body
    defines no name twice, makes every macro of the body expand to the body
    that the header gives it, and leaves every other macro (the guard apart)
    as it was. *)
Theorem include_defines_body (h : header) (t : macro_table) (n : string) :
  defined (guard h) t = false ->
  NoDup (map fst (defines h)) ->
  (forall b, In (n, b) (defines h) -> expand n (include h t) = Some b) /\
  (~ In n (map fst (defines h)) -> n <> guard h ->
   expand n (include h t) = expand n t).
Proof.
  intros Hfresh Hnd. rewrite (include_fresh h t Hfresh). unfold expand. split.
  - intros b Hin.
    rewrite (find_in_front _ _ _ (n, b)); [ reflexivity | ].
    apply find_by_name.
    + rewrite map_rev. apply NoDup_rev. exact Hnd.
    + apply in_rev in Hin. exact Hin.
  - intros Hnotin Hneq. rewrite find_past.
    + cbn [find fst]. destruct (String.eqb_spec (guard h) n); [ | reflexivity ].
      congruence.
    + intros [n' b'] Hx. cbn [fst]. apply String.eqb_neq. intros ->.
      apply Hnotin. apply in_rev in Hx. apply (in_map fst) in Hx. exact Hx.
Qed.

Lemma include_defines_body_witness :
  defined (guard har_config_phase1_h) [] = false /\
  NoDup (map fst (defines har_config_phase1_h)) /\
  expand "CCS_MIN_DWELL_MS" (include har_config_phase1_h []) = Some (IntLit 1000).
Proof.
  assert (Hf : defined (guard har_config_phase1_h) [] = false) by reflexivity.
  pose proof (config_defines_names_distinct phase1) as Hnd.
  split; [ exact Hf | split; [ exact Hnd | ] ].
  apply (proj1 (include_defines_body har_config_phase1_h [] "CCS_MIN_DWELL_MS"
                  Hf Hnd)).
  cbn. tauto.
Defined.

(** ** Element counts of the tables *)

(** X6.  The [uint16_t] length of a label table is its number of labels
    exactly when the table has fewer than 65536 labels, and the [uint8_t]
    [NUM_SESSIONS] is the number of registry entries exactly when there are
    fewer than 256; beyond that the stored count wraps around. *)
Theorem stored_count_exact {A : Type} (a : list A) :
  (CTypes.to_uint16 (CTypes.array_count a) = CTypes.array_count a <->
   CTypes.array_count a < 65536) /\
  (CTypes.to_uint8 (CTypes.array_count a) = CTypes.array_count a <->
   CTypes.array_count a < 256).
Proof.
  unfold CTypes.to_uint16, CTypes.to_uint8, CTypes.array_count.
  change (2 ^ 16) with 65536. change (2 ^ 8) with 256.
  split; split; intros H.
  - pose proof (Z.mod_pos_bound (Z.of_nat (List.length a)) 65536 eq_refl). lia.
  - apply Z.mod_small. lia.
  - pose proof (Z.mod_pos_bound (Z.of_nat (List.length a)) 256 eq_refl). lia.
  - apply Z.mod_small. lia.
Qed.

(** A table of exactly 65536 labels would be registered with length 0. *)
Example stored_count_wraps :
  CTypes.to_uint16 (CTypes.array_count (repeat 0 (Z.to_nat 65536))) = 0.
Proof.
  unfold CTypes.array_count. rewrite repeat_length, Z2Nat.id by discriminate.
  reflexivity.
Qed.

(** ** The fusion weights in binary32 *)

(** X7.  In both headers the binary32 constants of [CCS_ALPHA] and
    [CCS_BETA] add up to 1 + 2^-25 as exact numbers, not to 1; their sum is
    1 only after rounding to binary32, and the same sum computed in binary64
    differs from 1. *)
Theorem weights_sum_to_one_by_rounding :
  Forall (fun c =>
            let a := Float32.of_lit (CCS_ALPHA c) in
            let b := Float32.of_lit (CCS_BETA c) in
            (exists qa qb : Q,
                f32_to_Q a = Some qa /\ f32_to_Q b = Some qb /\
                (qa + qb == 1 + (1 # 2 ^ 25))%Q /\ ~ (qa + qb == 1)%Q) /\
            Float32.add a b = Float32.one /\
            SFeqb (f64_add a b) f64_one = false)
         [baseline; phase1].
Proof.
  each_element; cbv zeta.
  all: split; [ | split; vm_compute; reflexivity ].
  all: eexists; eexists; split; [ vm_compute; reflexivity | ].
  all: split; [ vm_compute; reflexivity | ].
  all: split; vm_compute; solve [ reflexivity | discriminate ].
Qed.

(** ** From CCS to the advertising interval *)

Ltac band_cases :=
  unfold interval_for_ccs, band_of, desired_band;
  repeat match goal with
         | |- context [ Qltb ?x ?y ] =>
             let E := fresh "E" in
             destruct (Qltb x y) eqn:E;
             [ apply Qltb_lt in E | apply Qltb_ge in E ]
         end;
  cbn [interval_of_mode].

(** X8.  Whenever the three CCS-driven intervals are ordered
    ACTIVE <= UNCERTAIN <= QUIET, a larger CCS never gets a longer
    advertising interval. *)
Theorem interval_antitone_in_ccs (c : har_config) (ccs1 ccs2 : Q) :
  BLE_INTERVAL_ACTIVE c <= BLE_INTERVAL_UNCERTAIN c ->
  BLE_INTERVAL_UNCERTAIN c <= BLE_INTERVAL_QUIET c ->
  (ccs1 <= ccs2)%Q ->
  interval_for_ccs c ccs2 <= interval_for_ccs c ccs1.
Proof.
  intros Hau Huq Hle. band_cases; first [ lia | exfalso; lra ].
Qed.

Lemma interval_antitone_in_ccs_witness :
  BLE_INTERVAL_ACTIVE phase1 <= BLE_INTERVAL_UNCERTAIN phase1 /\
  BLE_INTERVAL_UNCERTAIN phase1 <= BLE_INTERVAL_QUIET phase1 /\
  (0.10 <= 0.40)%Q /\
  interval_for_ccs phase1 0.40 <= interval_for_ccs phase1 0.10.
Proof.
  assert (H1 : BLE_INTERVAL_ACTIVE phase1 <= BLE_INTERVAL_UNCERTAIN phase1)
    by discriminate.
  assert (H2 : BLE_INTERVAL_UNCERTAIN phase1 <= BLE_INTERVAL_QUIET phase1)
    by discriminate.
  assert (H3 : (0.10 <= 0.40)%Q) by discriminate.
  split; [ exact H1 | split; [ exact H2 | split; [ exact H3 | ] ] ].
  exact (interval_antitone_in_ccs phase1 0.10 0.40 H1 H2 H3).
Defined.

(** X9.  Between two configurations with the same intervals, ordered
    ACTIVE <= UNCERTAIN <= QUIET, the one with the lower thresholds never
    advertises more slowly, at any CCS. *)
Theorem lower_thresholds_never_slower (a b : har_config) (ccs : Q) :
  BLE_INTERVAL_QUIET a = BLE_INTERVAL_QUIET b ->
  BLE_INTERVAL_UNCERTAIN a = BLE_INTERVAL_UNCERTAIN b ->
  BLE_INTERVAL_ACTIVE a = BLE_INTERVAL_ACTIVE b ->
  BLE_INTERVAL_ACTIVE b <= BLE_INTERVAL_UNCERTAIN b ->
  BLE_INTERVAL_UNCERTAIN b <= BLE_INTERVAL_QUIET b ->
  (CCS_THETA_LOW a <= CCS_THETA_LOW b)%Q ->
  (CCS_THETA_HIGH a <= CCS_THETA_HIGH b)%Q ->
  interval_for_ccs a ccs <= interval_for_ccs b ccs.
Proof.
  intros Hq Hu Ha Hau Huq Hlow Hhigh.
  band_cases; first [ lia | exfalso; lra ].
Qed.

Lemma lower_thresholds_never_slower_witness :
  interval_for_ccs phase1 0.36 <= interval_for_ccs baseline 0.36 /\
  interval_for_ccs phase1 0.36 = 100 /\
  interval_for_ccs baseline 0.36 = 2000.
Proof.
  split; [ | split; reflexivity ].
  apply (lower_thresholds_never_slower phase1 baseline 0.36);
    solve [ reflexivity | discriminate ].
Defined.
